(** * Investigation Case Manager: a shallow embedding of [main.py] and
      [schemas.py], and the properties of its request handlers.

    Python dictionaries are [gmap string value]; the document store is a
    map from collection names to collections, each a map from native
    identifiers to field maps; handlers run in a state-and-exception monad
    over the module-level [db] handle. *)

From Stdlib Require Import ZArith NArith Ascii String.
From Stdlib.Strings Require Import Byte.
From stdpp Require Import base option gmap strings list fin_maps pretty.

Local Open Scope string_scope.
Local Open Scope Z_scope.

(** ** Python strings *)

(** A [str] is held as its UTF-8 encoding, one [ascii] for each byte. A
    character starts at every byte that is not a continuation byte
    ([10xxxxxx]), so [len(s)] counts those. *)
Definition is_continuation (c : ascii) : bool :=
  let n := N_of_ascii c in ((128 <=? n) && (n <? 192))%N.

Fixpoint py_len (s : string) : nat :=
  match s with
  | EmptyString => O
  | String c s' => if is_continuation c then py_len s' else S (py_len s')
  end.

(** ASCII whitespace as [bytes.fromhex] sees it: tab, line feed, vertical
    tab, form feed, carriage return and space. *)
Definition is_space (c : ascii) : bool :=
  let n := N_of_ascii c in ((9 <=? n) && (n <=? 13) || (n =? 32))%N.

(** ** Native identifiers ([bson.objectid.ObjectId]) *)

Module Oid.

#[global] Instance byte_eq_dec : EqDecision byte := Byte.byte_eq_dec.

#[global] Instance byte_countable : Countable byte :=
  inj_countable Byte.to_N Byte.of_N Byte.of_to_N.

(** An [ObjectId] wraps its binary form ([oid.binary]): twelve bytes when
    the driver generates it, possibly fewer when it is built from a
    string (see [of_str]). *)
Abbreviation ObjectId := (list byte).

Definition hex_digit (n : N) : ascii :=
  (if n <? 10 then ascii_of_N (48 + n) else ascii_of_N (87 + n))%N.

(** [bytes.fromhex] reads digits in either case. *)
Definition hex_value (c : ascii) : option N :=
  let n := N_of_ascii c in
  (if (48 <=? n) && (n <=? 57) then Some (n - 48)
   else if (97 <=? n) && (n <=? 102) then Some (n - 87)
   else if (65 <=? n) && (n <=? 70) then Some (n - 55)
   else None)%N.

(** [str(oid)]: the binary form in lower-case hexadecimal. *)
Fixpoint hex (bs : list byte) : string :=
  match bs with
  | [] => EmptyString
  | b :: bs' =>
      let n := Byte.to_N b in
      String (hex_digit (n / 16)) (String (hex_digit (n mod 16)) (hex bs'))
  end.

(** [bytes.fromhex(s)]: pairs of hexadecimal digits; ASCII whitespace is
    skipped before a pair and at the end, not between the two digits of a
    pair. Anything else is a [ValueError] (here [None]). *)
Fixpoint fromhex (s : string) : option (list byte) :=
  match s with
  | EmptyString => Some []
  | String c1 s1 =>
      if is_space c1 then fromhex s1
      else
        match s1 with
        | String c2 s' =>
            match hex_value c1, hex_value c2, fromhex s' with
            | Some h, Some l, Some bs =>
                match Byte.of_N (16 * h + l) with
                | Some b => Some (b :: bs)
                | None => None
                end
            | _, _, _ => None
            end
        | EmptyString => None
        end
  end.

(** [ObjectId(s)] for a [str] argument: when [len(s) == 24] the binary
    form is [bytes.fromhex(s)], and a [ValueError] there or any other
    length raises [InvalidId] (here [None]). A string of 24 characters
    with whitespace among its digit pairs is therefore accepted and gives
    fewer than twelve bytes. *)
Definition of_str (s : string) : option ObjectId :=
  if (py_len s =? 24)%nat then fromhex s else None.

Definition to_str (o : ObjectId) : string := hex o.

(** A fresh identifier from the driver's counter, big-endian on twelve
    bytes. *)
Fixpoint be_bytes (k : nat) (n : N) : list byte :=
  match k with
  | O => []
  | S k' =>
      be_bytes k' (n / 256) ++
      [match Byte.of_N (n mod 256) with Some b => b | None => x00 end]
  end.

Definition generate (counter : N) : ObjectId := be_bytes 12 counter.

End Oid.

Import Oid.

(** ** Python values and dictionaries *)

Inductive value :=
| VNone
| VBool (b : bool)
| VInt (z : Z)
| VStr (s : string)
| VOid (o : ObjectId).

#[global] Instance value_eq_dec : EqDecision value.
Proof. solve_decision. Defined.

Abbreviation dict := (gmap string value).

(** Truth value of a Python object, as tested by [if x:] and [not x]. *)
Definition truthy (v : value) : bool :=
  match v with
  | VNone => false
  | VBool b => b
  | VInt z => negb (z =? 0)
  | VStr s => negb (String.eqb s "")
  | VOid _ => true
  end.

Definition truthy_str (o : option string) : bool :=
  match o with
  | Some s => negb (String.eqb s "")
  | None => false
  end.

Definition truthy_dict (d : dict) : bool := negb (bool_decide (d = ∅)).

Definition truthy_opt_dict (o : option dict) : bool :=
  match o with
  | Some d => truthy_dict d
  | None => false
  end.

(** [str(x)]. *)
Definition py_str (v : value) : string :=
  match v with
  | VNone => "None"
  | VBool true => "True"
  | VBool false => "False"
  | VInt z => pretty z
  | VStr s => s
  | VOid o => to_str o
  end.

Definition of_opt_str (o : option string) : value :=
  match o with Some s => VStr s | None => VNone end.

Definition of_opt_int (o : option Z) : value :=
  match o with Some z => VInt z | None => VNone end.

(** ** Exceptions and handler results *)

Inductive exn :=
| HTTPException (status_code : Z) (detail : string)
| InvalidId (oid : string)
| ValidationError (loc : string)
| TypeError (msg : string)
| Exception (msg : string).

Inductive result (A : Type) :=
| Return (a : A)
| Raise (e : exn).
Arguments Return {A} a.
Arguments Raise {A} e.

(** ** The document store behind [db] *)

Record Store := mkStore {
  collections : gmap string (gmap ObjectId dict);
  oid_counter : N
}.

Definition collection (st : Store) (name : string) : gmap ObjectId dict :=
  default ∅ (collections st !! name).

(** The module-level handle: [None] when the database is not configured or
    the [database] module could not be imported. *)
Abbreviation DB := (option Store).

(** Handlers read and write the handle and may raise. *)
Definition M (A : Type) : Type := DB → result A * DB.

#[global] Instance M_ret : MRet M := λ A a db, (Return a, db).

#[global] Instance M_bind : MBind M := λ A B k m db,
  match m db with
  | (Return a, db') => k a db'
  | (Raise e, db') => (Raise e, db')
  end.

Definition raise {A} (e : exn) : M A := λ db, (Raise e, db).

Definition lift {A} (r : result A) : M A := λ db, (r, db).

Definition get_db : M DB := λ db, (Return db, db).

(** *** The driver ([pymongo]) on [db[name]] *)

(** A stored document as the driver hands it out: its fields and its
    native identifier under ["_id"]. *)
Definition with_id (oid : ObjectId) (fields : dict) : dict :=
  <["_id" := VOid oid]> fields.

Definition subscript_None {A} : M A :=
  raise (TypeError "'NoneType' object is not subscriptable").

(** [db[name].find_one({"_id": oid})] *)
Definition find_one (name : string) (oid : ObjectId) : M (option dict) :=
  λ db,
    match db with
    | Some st => (Return (with_id oid <$> collection st name !! oid), db)
    | None => subscript_None db
    end.

(** [db[name].update_one({"_id": oid}, {"$set": updates}).matched_count]:
    the fields of [updates] overwrite those of the matched document, the
    others stay. *)
Definition update_one (name : string) (oid : ObjectId) (updates : dict)
  : M Z :=
  λ db,
    match db with
    | Some st =>
        match collection st name !! oid with
        | Some fields =>
            (Return 1,
             Some (mkStore
                     (<[name := <[oid := updates ∪ fields]> (collection st name)]>
                        (collections st))
                     (oid_counter st)))
        | None => (Return 0, db)
        end
    | None => subscript_None db
    end.

(** *** The [database] module *)

(** Exact-match filter of [findMany]. *)
Definition matches (filter_dict doc : dict) : bool :=
  bool_decide (map_Forall (λ k v, doc !! k = Some v) filter_dict).

Definition documents (st : Store) (name : string) : list dict :=
  (λ kv, with_id kv.1 kv.2) <$> map_to_list (collection st name).

Definition database_not_available {A} : M A :=
  raise (Exception "Database not available").

(** Modelled from the spec: [create_document] of [database.py], which is
    not among the sources; section 4.3, [insert(collectionName, record)
    -> nativeId] persists a validated record and returns a fresh unique
    identifier, and every operation fails when the store is unreachable
    (as the fallback of [main.py] does when the import fails). The handler
    passes the identifier on as the public id, so it is returned in string
    form. *)
Definition create_document (collection_name : string) (data : dict)
  : M string :=
  λ db,
    match db with
    | Some st =>
        let oid := generate (oid_counter st) in
        (Return (to_str oid),
         Some (mkStore
                 (<[collection_name := <[oid := data]> (collection st collection_name)]>
                    (collections st))
                 (oid_counter st + 1)))
    | None => database_not_available db
    end.

(** Modelled from the spec: [get_documents] of [database.py], which is not
    among the sources; section 4.3, [findMany(collectionName, filter,
    limit)] returns the records matching every field of the filter
    exactly, capped at [limit] results, in an order the store chooses. *)
Definition get_documents (collection_name : string) (filter_dict : dict)
    (limit : Z) : M (list dict) :=
  λ db,
    match db with
    | Some st =>
        (Return (take (Z.to_nat limit)
                   (filter (λ d, matches filter_dict d = true)
                      (documents st collection_name))),
         db)
    | None => database_not_available db
    end.

(** ** Schemas ([schemas.py]) and request models ([main.py]) *)

(** [pydantic.BaseModel]: what the handlers use of it. *)
Class BaseModel (A : Type) := model_dump : A → dict.

(** [model_dump(exclude_none=True)] *)
Definition exclude_none (d : dict) : dict :=
  filter (λ kv, kv.2 ≠ VNone) d.

(** [Field(None, ge=lo, le=hi)] on an [Optional[int]]: [None] passes, an
    integer must lie within the bounds. *)
Definition Field_ge_le (loc : string) (lo hi : Z) (v : option Z)
  : result (option Z) :=
  match v with
  | None => Return None
  | Some z =>
      if (lo <=? z) && (z <=? hi) then Return (Some z)
      else Raise (ValidationError loc)
  end.

Module CaseCreate.
Record t := mk {
  username : string;
  allegations : option string;
  reporter_name : option string;
  reporter_contact : option string
}.
End CaseCreate.

#[global] Instance CaseCreate_model : BaseModel CaseCreate.t := λ p,
  {[ "username" := VStr (CaseCreate.username p);
     "allegations" := of_opt_str (CaseCreate.allegations p);
     "reporter_name" := of_opt_str (CaseCreate.reporter_name p);
     "reporter_contact" := of_opt_str (CaseCreate.reporter_contact p) ]}.

Module CaseUpdate.
Record t := mk {
  status : option string;
  notes : option string;
  risk_score : option Z
}.
End CaseUpdate.

#[global] Instance CaseUpdate_model : BaseModel CaseUpdate.t := λ p,
  {[ "status" := of_opt_str (CaseUpdate.status p);
     "notes" := of_opt_str (CaseUpdate.notes p);
     "risk_score" := of_opt_int (CaseUpdate.risk_score p) ]}.

(** Validation of an update body whose fields have the declared types; an
    absent field and [null] both arrive as [None]. *)
Definition CaseUpdate_validate (status notes : option string)
    (risk_score : option Z) : result CaseUpdate.t :=
  match Field_ge_le "risk_score" 0 100 risk_score with
  | Return r => Return (CaseUpdate.mk status notes r)
  | Raise e => Raise e
  end.

Module EvidenceCreate.
Record t := mk {
  case_id : string;
  type : string;
  url : option string;
  description : option string
}.
End EvidenceCreate.

#[global] Instance EvidenceCreate_model : BaseModel EvidenceCreate.t := λ p,
  {[ "case_id" := VStr (EvidenceCreate.case_id p);
     "type" := VStr (EvidenceCreate.type p);
     "url" := of_opt_str (EvidenceCreate.url p);
     "description" := of_opt_str (EvidenceCreate.description p) ]}.

Module Case.
Record t := mk {
  username : string;
  allegations : option string;
  reporter_name : option string;
  reporter_contact : option string;
  status : string;
  risk_score : option Z;
  notes : option string
}.
End Case.

#[global] Instance Case_model : BaseModel Case.t := λ c,
  {[ "username" := VStr (Case.username c);
     "allegations" := of_opt_str (Case.allegations c);
     "reporter_name" := of_opt_str (Case.reporter_name c);
     "reporter_contact" := of_opt_str (Case.reporter_contact c);
     "status" := VStr (Case.status c);
     "risk_score" := of_opt_int (Case.risk_score c);
     "notes" := of_opt_str (Case.notes c) ]}.

(** [Case(username=..., ...)] with keyword arguments of the declared
    types. [status = None] stands for the keyword left out, which takes
    the default ["open"]; for the [Optional] fields, whose default is
    [None], leaving the keyword out and passing [None] give the same
    record. *)
Definition CaseSchema (username : string)
    (allegations reporter_name reporter_contact : option string)
    (status : option string) (risk_score : option Z) (notes : option string)
  : result Case.t :=
  match Field_ge_le "risk_score" 0 100 risk_score with
  | Return r =>
      Return (Case.mk username allegations reporter_name reporter_contact
                (default "open" status) r notes)
  | Raise e => Raise e
  end.

Module Evidence.
Record t := mk {
  case_id : string;
  type : string;
  url : option string;
  description : option string
}.
End Evidence.

#[global] Instance Evidence_model : BaseModel Evidence.t := λ e,
  {[ "case_id" := VStr (Evidence.case_id e);
     "type" := VStr (Evidence.type e);
     "url" := of_opt_str (Evidence.url e);
     "description" := of_opt_str (Evidence.description e) ]}.

(** [Evidence(case_id=..., type=..., ...)]: no field carries a
    constraint. *)
Definition EvidenceSchema (case_id type : string)
    (url description : option string) : result Evidence.t :=
  Return (Evidence.mk case_id type url description).

Module PublicProfileResponse.
Record t := mk {
  username : string;
  full_name : option string;
  bio : option string;
  external_url : option string;
  is_private : option bool
}.
End PublicProfileResponse.

(** ** Utilities and request handlers ([main.py]) *)

(** [ObjectId(s)] raises [InvalidId] on a string it does not accept. *)
Definition ObjectId_new (s : string) : M ObjectId :=
  match of_str s with
  | Some oid => mret oid
  | None => raise (InvalidId s)
  end.

Definition as_str_id (doc : dict) : dict :=
  match doc !! "_id" with
  | Some v =>
      if truthy v then <["id" := VStr (py_str v)]> (delete "_id" doc)
      else doc
  | None => doc
  end.

Definition create_case (payload : CaseCreate.t) : M dict :=
  data ← lift (CaseSchema (CaseCreate.username payload)
                 (CaseCreate.allegations payload)
                 (CaseCreate.reporter_name payload)
                 (CaseCreate.reporter_contact payload)
                 None None None);
  case_id ← create_document "case" (model_dump data);
  mret {[ "id" := VStr case_id ]}.

(** The filter [list_cases] builds before it queries. *)
Definition list_cases_filter (username status : option string) : dict :=
  let filter_q : dict := ∅ in
  let filter_q :=
    if truthy_str username
    then <["username" := of_opt_str username]> filter_q else filter_q in
  let filter_q :=
    if truthy_str status
    then <["status" := of_opt_str status]> filter_q else filter_q in
  filter_q.

Definition list_cases (username status : option string) (limit : option Z)
  : M (list dict) :=
  let limit := default 50 limit in
  docs ← get_documents "case" (list_cases_filter username status) limit;
  mret (as_str_id <$> docs).

(** [if not doc:] holds for [None] and for an empty dictionary. *)
Definition get_case (case_id : string) : M dict :=
  db ← get_db;
  if bool_decide (db = None)
  then raise (HTTPException 500 "Database not available")
  else
    oid ← ObjectId_new case_id;
    doc ← find_one "case" oid;
    match doc with
    | Some d =>
        if negb (truthy_dict d) then raise (HTTPException 404 "Case not found")
        else mret (as_str_id d)
    | None => raise (HTTPException 404 "Case not found")
    end.

Definition update_case (case_id : string) (payload : CaseUpdate.t) : M dict :=
  db ← get_db;
  if bool_decide (db = None)
  then raise (HTTPException 500 "Database not available")
  else
    let updates := exclude_none (model_dump payload) in
    if negb (truthy_dict updates) then mret {[ "updated" := VBool false ]}
    else
      oid ← ObjectId_new case_id;
      matched_count ← update_one "case" oid updates;
      if matched_count =? 0 then raise (HTTPException 404 "Case not found")
      else mret {[ "updated" := VBool true ]}.

Definition add_evidence (payload : EvidenceCreate.t) : M dict :=
  db ← get_db;
  if bool_decide (db = None)
  then raise (HTTPException 500 "Database not available")
  else
    oid ← ObjectId_new (EvidenceCreate.case_id payload);
    case ← find_one "case" oid;
    if negb (truthy_opt_dict case)
    then raise (HTTPException 404 "Case not found")
    else
      data ← lift (EvidenceSchema (EvidenceCreate.case_id payload)
                     (EvidenceCreate.type payload)
                     (EvidenceCreate.url payload)
                     (EvidenceCreate.description payload));
      evidence_id ← create_document "evidence" (model_dump data);
      mret {[ "id" := VStr evidence_id ]}.

Definition list_evidence (case_id : string) (limit : option Z)
  : M (list dict) :=
  let limit := default 200 limit in
  docs ← get_documents "evidence" {[ "case_id" := VStr case_id ]} limit;
  mret (as_str_id <$> docs).

Definition public_lookup (username : string) : M PublicProfileResponse.t :=
  mret (PublicProfileResponse.mk username None None None (Some true)).

(** ** A small store to run the handlers on *)

Definition empty_store : Store := mkStore ∅ 0.

Definition sample_case : CaseCreate.t :=
  CaseCreate.mk "scammer123" (Some "fake giveaway") None None.

Definition run {A} (m : M A) (db : DB) : result A := (m db).1.
Definition exec {A} (m : M A) (db : DB) : DB := (m db).2.

(** A store holding one case, the first the driver numbers. *)
Definition case1 : Case.t :=
  Case.mk "scammer123" (Some "fake giveaway") None None "open" None None.

Definition st1 : Store :=
  mkStore {[ "case" := {[ generate 0 := model_dump case1 ]} ]} 1.

Definition store1 : DB := Some st1.

Definition id1 : string := to_str (generate 0).

Definition evidence1 : EvidenceCreate.t :=
  EvidenceCreate.mk id1 "screenshot" None None.

Definition evidence_bad_id : EvidenceCreate.t :=
  EvidenceCreate.mk "not-an-id" "screenshot" None None.

Definition notes_only : CaseUpdate.t := CaseUpdate.mk None (Some "seen") None.

Definition empty_update : CaseUpdate.t := CaseUpdate.mk None None None.

(** The same store once a screenshot is attached to the case. *)
Definition st2 : Store :=
  mkStore
    {[ "case" := {[ generate 0 := model_dump case1 ]};
       "evidence" :=
         {[ generate 1
            := model_dump (Evidence.mk id1 "screenshot" None None) ]} ]}
    2.

(** ** How the framework answers *)

(** FastAPI answers an [HTTPException] with its status code; any other
    exception that escapes a handler becomes a 500 response. *)
Definition response_status {A} (r : result A) : Z :=
  match r with
  | Return _ => 200
  | Raise (HTTPException status_code _) => status_code
  | Raise _ => 500
  end.

(** The filter the specification describes for the case listing: one
    entry for each of [username] and [status] that the client provided. *)
Definition provided_filters (username status : option string) : dict :=
  let with_username : dict :=
    match username with
    | Some u => {[ "username" := VStr u ]}
    | None => ∅
    end in
  match status with
  | Some s => <["status" := VStr s]> with_username
  | None => with_username
  end.

(** A filter that is absent or the empty string. *)
Definition nonempty (o : option string) : option string :=
  match o with
  | Some s => if String.eqb s "" then None else Some s
  | None => None
  end.

(** The fields an update body supplies: those that are not [None]. *)
Definition supplied (payload : CaseUpdate.t) : list string :=
  (if CaseUpdate.status payload is Some _ then ["status"] else []) ++
  (if CaseUpdate.notes payload is Some _ then ["notes"] else []) ++
  (if CaseUpdate.risk_score payload is Some _ then ["risk_score"] else []).

(** The number a big-endian byte string denotes. *)
Definition be_value (bs : list byte) : N :=
  fold_left (λ acc b, (acc * 256 + Byte.to_N b)%N) bs 0%N.

(** Every stored identifier was generated from an earlier value of the
    counter. *)
Definition store_wf (st : Store) : Prop :=
  ∀ (name : string) (oid : ObjectId),
    is_Some (collection st name !! oid) →
    ∃ n : N, (n < oid_counter st)%N ∧ oid = generate n.

(** ** The example schema [User] ([schemas.py]) *)

Module User.
Record t := mk {
  name : string;
  email : string;
  address : string;
  age : option Z;
  is_active : bool
}.
End User.

(** [User(name=..., ...)] with keyword arguments of the declared types;
    [is_active = None] stands for the keyword left out. *)
Definition UserSchema (name email address : string) (age : option Z)
    (is_active : option bool) : result User.t :=
  match Field_ge_le "age" 0 120 age with
  | Return a => Return (User.mk name email address a (default true is_active))
  | Raise e => Raise e
  end.

(** ** The diagnostic endpoint ([test_database]) *)

(** An operation that returns, or raises an exception whose [str(e)] is
    the message. *)
Inductive attempt (A : Type) :=
| Done (a : A)
| Raised (message : string).
Arguments Done {A} a.
Arguments Raised {A} message.

(** What the endpoint uses of the imported handle: its [name] attribute,
    if it has one, and the outcome of [list_collection_names()]. *)
Module Database.
Record t := mk {
  name : option string;
  list_collection_names : attempt (list string)
}.
End Database.

Module Diagnostic.
Record t := mk {
  backend : string;
  database : string;
  database_url : option string;
  database_name : option string;
  connection_status : string;
  collections : list string
}.

(** [response[key] = value], one function for each key the endpoint
    assigns. *)
Definition set_database (v : string) (r : t) : t :=
  mk (backend r) v (database_url r) (database_name r) (connection_status r)
    (collections r).
Definition set_database_url (v : string) (r : t) : t :=
  mk (backend r) (database r) (Some v) (database_name r) (connection_status r)
    (collections r).
Definition set_database_name (v : string) (r : t) : t :=
  mk (backend r) (database r) (database_url r) (Some v) (connection_status r)
    (collections r).
Definition set_connection_status (v : string) (r : t) : t :=
  mk (backend r) (database r) (database_url r) (database_name r) v
    (collections r).
Definition set_collections (v : list string) (r : t) : t :=
  mk (backend r) (database r) (database_url r) (database_name r)
    (connection_status r) v.
End Diagnostic.

(** ["✅ Set" if os.getenv(key) else "❌ Not Set"] *)
Definition set_or_not (environ : gmap string string) (key : string)
  : string :=
  if truthy_str (environ !! key) then "✅ Set" else "❌ Not Set".

(** [s[:n]]: the first [n] characters, each with all the bytes of its
    encoding. *)
Fixpoint slice_to (n : nat) (s : string) : string :=
  match s with
  | EmptyString => EmptyString
  | String c s' =>
      if is_continuation c then String c (slice_to n s')
      else
        match n with
        | O => EmptyString
        | S n' => String c (slice_to n' s')
        end
  end.

(** [test_database()], given the process environment and what
    [from database import db] yields. The response starts from its
    defaults and is overwritten key by key, as in the source; both
    [except] clauses end in the [return]. *)
Definition test_database (environ : gmap string string)
    (import_db : attempt (option Database.t)) : Diagnostic.t :=
  let response :=
    Diagnostic.mk "✅ Running" "❌ Not Available" None None "Not Connected" [] in
  match import_db with
  | Done (Some _db) =>
      let response := Diagnostic.set_database "✅ Available" response in
      let response :=
        Diagnostic.set_database_url (set_or_not environ "DATABASE_URL")
          response in
      let response :=
        Diagnostic.set_database_name
          (match Database.name _db with
           | Some n => n
           | None => "✅ Connected"
           end) response in
      let response := Diagnostic.set_connection_status "Connected" response in
      match Database.list_collection_names _db with
      | Done collections =>
          let response :=
            Diagnostic.set_collections (take 10 collections) response in
          Diagnostic.set_database "✅ Connected & Working" response
      | Raised e =>
          Diagnostic.set_database ("⚠️ Connected but Error: " ++ slice_to 80 e)
            response
      end
  | Done None =>
      Diagnostic.set_database "⚠️ Available but not initialized" response
  | Raised e =>
      let response :=
        Diagnostic.set_database ("❌ Error: " ++ slice_to 80 e) response in
      let response :=
        Diagnostic.set_database_url (set_or_not environ "DATABASE_URL")
          response in
      Diagnostic.set_database_name (set_or_not environ "DATABASE_NAME")
        response
  end.

(** ** More sample data *)

(** A case whose identifier has a letter among its digits. *)
Definition st3 : Store :=
  mkStore {[ "case" := {[ generate 10 := model_dump case1 ]} ]} 11.

Definition evidence_upper : EvidenceCreate.t :=
  EvidenceCreate.mk "00000000000000000000000A" "link" None None.

Definition full_update : CaseUpdate.t :=
  CaseUpdate.mk (Some "closed") (Some "seen") (Some 0).

Definition working_database : Database.t :=
  Database.mk (Some "cases") (Done ["case"; "evidence"]).

(** Every stored case has an identifier of twelve bytes, as every
    identifier the driver or the server generates has. *)
Definition twelve_byte_ids (st : Store) : Prop :=
  ∀ oid : ObjectId,
    is_Some (collection st "case" !! oid) → length oid = 12%nat.

(** Twenty-four characters that [ObjectId] accepts although they are not
    twenty-four digits. *)
Definition blank_id : string := "                        ".

Definition padded_id : string := "0000000000000000000000  ".

(** * Properties *)

(** ** Identifiers *)

Lemma hex_value_digit (n : N) :
  (n < 16)%N → hex_value (hex_digit n) = Some n.
Proof.
  intros Hn. destruct n as [|p]; [reflexivity|].
  do 4 (destruct p as [p|p|]; try reflexivity); lia.
Qed.

Lemma hex_digit_plain (n : N) :
  (n < 16)%N →
  is_space (hex_digit n) = false ∧ is_continuation (hex_digit n) = false.
Proof.
  intros Hn. destruct n as [|p]; [by split|].
  do 4 (destruct p as [p|p|]; try by split); lia.
Qed.

Lemma byte_digits (b : byte) :
  (Byte.to_N b / 16 < 16)%N ∧ (Byte.to_N b mod 16 < 16)%N.
Proof.
  pose proof (Byte.to_N_bounded b) as Hb. split.
  - apply N.Div0.div_lt_upper_bound. lia.
  - apply N.mod_lt. lia.
Qed.

Lemma fromhex_hex (bs : list byte) : fromhex (hex bs) = Some bs.
Proof.
  induction bs as [|b bs IH]; [done|].
  cbn [hex fromhex].
  pose proof (Byte.to_N_bounded b) as Hb.
  destruct (byte_digits b) as [Hhi Hlo].
  rewrite (proj1 (hex_digit_plain _ Hhi)).
  rewrite !hex_value_digit, IH.
  - replace (16 * (Byte.to_N b / 16) + Byte.to_N b mod 16)%N
      with (Byte.to_N b) by (rewrite (N.div_mod (Byte.to_N b) 16) at 1; lia).
    by rewrite Byte.of_to_N.
  - apply N.mod_lt. lia.
  - apply N.Div0.div_lt_upper_bound. lia.
Qed.

Lemma length_hex (bs : list byte) :
  py_len (hex bs) = (2 * length bs)%nat.
Proof.
  induction bs as [|b bs IH]; [done|].
  destruct (byte_digits b) as [Hhi Hlo].
  cbn [hex py_len length].
  rewrite (proj2 (hex_digit_plain _ Hhi)), (proj2 (hex_digit_plain _ Hlo)).
  lia.
Qed.

Lemma length_be_bytes (k : nat) (n : N) : length (be_bytes k n) = k.
Proof.
  revert n. induction k as [|k IH]; intros n; [done|].
  cbn [be_bytes]. rewrite length_app, IH. cbn. lia.
Qed.

(** Parsing the string form of a generated identifier gives it back. *)
Lemma of_str_generate (counter : N) :
  of_str (to_str (generate counter)) = Some (generate counter).
Proof.
  unfold of_str, to_str, generate.
  rewrite length_hex, length_be_bytes. cbn [Nat.eqb Nat.mul Nat.add].
  apply fromhex_hex.
Qed.

(** More generally, any twelve-byte identifier survives the round trip. *)
Lemma of_str_to_str (oid : ObjectId) :
  length oid = 12%nat → of_str (to_str oid) = Some oid.
Proof.
  intros Hlen. unfold of_str, to_str.
  rewrite length_hex, Hlen. cbn [Nat.eqb Nat.mul Nat.add].
  apply fromhex_hex.
Qed.


(** A string whose length is not 24 is never accepted. *)
Lemma of_str_wrong_length (s : string) :
  py_len s ≠ 24%nat → of_str s = None.
Proof.
  intros Hlen. unfold of_str.
  by destruct (Nat.eqb_spec (py_len s) 24).
Qed.

(** Whitespace among the digit pairs is skipped, so these two strings of
    24 characters are accepted, with fewer than twelve bytes; digits in
    upper case are read as in lower case. *)
Lemma of_str_whitespace :
  of_str blank_id = Some []
  ∧ of_str padded_id = Some (replicate 11 x00)
  ∧ of_str "00000000000000000000000A" = Some (generate 10)
  ∧ of_str "0000000000000000000000 0" = None.
Proof. repeat split; reflexivity. Qed.

(** *** Generated identifiers are fresh *)

Lemma be_value_be_bytes (k : nat) (n : N) :
  be_value (be_bytes k n) = (n mod 256 ^ N.of_nat k)%N.
Proof.
  unfold be_value. revert n. induction k as [|k IH]; intros n.
  - cbn. by rewrite N.mod_1_r.
  - cbn [be_bytes]. rewrite fold_left_app, IH. cbn [fold_left].
    destruct (Byte.of_N (n mod 256)) as [b|] eqn:Hb.
    + apply Byte.to_of_N in Hb. rewrite Hb.
      rewrite Nat2N.inj_succ, N.pow_succ_r', N.Div0.mod_mul_r. lia.
    + apply Byte.of_N_None_iff in Hb.
      pose proof (N.mod_upper_bound n 256). lia.
Qed.

Lemma generate_inj (n m : N) :
  (n < 2 ^ 96)%N → (m < 2 ^ 96)%N → generate n = generate m → n = m.
Proof.
  intros Hn Hm Heq. apply (f_equal be_value) in Heq.
  unfold generate in Heq. rewrite !be_value_be_bytes in Heq.
  change (256 ^ N.of_nat 12)%N with (2 ^ 96)%N in Heq.
  by rewrite !N.mod_small in Heq.
Qed.

(** In a well-formed store the next identifier is not in use, so
    [create_document] never overwrites a document. *)
Lemma generate_fresh (st : Store) (name : string) :
  store_wf st → (oid_counter st < 2 ^ 96)%N →
  collection st name !! generate (oid_counter st) = None.
Proof.
  intros Hwf Hbound.
  destruct (collection st name !! generate (oid_counter st)) eqn:Hin; [|done].
  destruct (Hwf name (generate (oid_counter st))) as (n & Hn & Heq); [by eauto|].
  apply generate_inj in Heq; lia.
Qed.

Lemma empty_store_wf : store_wf empty_store.
Proof.
  intros name oid [fields Hin]. unfold collection, empty_store in Hin.
  cbn in Hin. by rewrite !lookup_empty in Hin.
Qed.

(** ** Documents as the driver returns them *)

Lemma with_id_lookup (oid : ObjectId) (fields : dict) :
  with_id oid fields !! "_id" = Some (VOid oid).
Proof. apply lookup_insert_eq. Qed.

Lemma with_id_lookup_ne (oid : ObjectId) (fields : dict) (k : string) :
  k ≠ "_id" → with_id oid fields !! k = fields !! k.
Proof. intros Hk. unfold with_id. by rewrite lookup_insert_ne. Qed.

(** A document that was found is never the empty dictionary. *)
Lemma truthy_with_id (oid : ObjectId) (fields : dict) :
  truthy_dict (with_id oid fields) = true.
Proof.
  unfold truthy_dict, with_id.
  rewrite bool_decide_eq_false_2; [done|]. apply insert_non_empty.
Qed.

Lemma as_str_id_with_id (oid : ObjectId) (fields : dict) :
  as_str_id (with_id oid fields)
  = <["id" := VStr (to_str oid)]> (delete "_id" fields).
Proof.
  unfold as_str_id. rewrite with_id_lookup. cbn [truthy py_str].
  unfold with_id. by rewrite delete_insert_eq.
Qed.

(** Public form of a stored document. *)
Lemma as_str_id_lookup_id (oid : ObjectId) (fields : dict) :
  as_str_id (with_id oid fields) !! "id" = Some (VStr (to_str oid))
  ∧ as_str_id (with_id oid fields) !! "_id" = None.
Proof.
  rewrite as_str_id_with_id. split.
  - apply lookup_insert_eq.
  - rewrite lookup_insert_ne by done. apply lookup_delete_eq.
Qed.

Lemma as_str_id_lookup_other (oid : ObjectId) (fields : dict) (k : string) :
  k ≠ "id" → k ≠ "_id" →
  as_str_id (with_id oid fields) !! k = fields !! k.
Proof.
  intros Hid H_id. rewrite as_str_id_with_id.
  rewrite lookup_insert_ne by done. by rewrite lookup_delete_ne.
Qed.

Lemma collection_insert (m : gmap string (gmap ObjectId dict))
    (name : string) (c : gmap ObjectId dict) (n : N) :
  collection (mkStore (<[name := c]> m) n) name = c.
Proof. unfold collection. cbn [collections]. by rewrite lookup_insert_eq. Qed.

Lemma collection_insert_ne (m : gmap string (gmap ObjectId dict))
    (name name' : string) (c : gmap ObjectId dict) (n n' : N) :
  name ≠ name' →
  collection (mkStore (<[name := c]> m) n) name'
  = collection (mkStore m n') name'.
Proof.
  intros Hne. unfold collection. cbn [collections].
  by rewrite lookup_insert_ne.
Qed.

(** Unfolds the monad so that a handler reads as a case analysis. *)
Ltac run_handler :=
  unfold mbind, M_bind, mret, M_ret, get_db, raise, lift,
    subscript_None, database_not_available; cbn beta iota.

(** ** Getting a case *)

(** [get_case] as a decision table over the handle, the id and the
    collection; the store is never modified. *)
Lemma get_case_run (db : DB) (case_id : string) :
  get_case case_id db =
  (match db with
   | None => Raise (HTTPException 500 "Database not available")
   | Some st =>
       match of_str case_id with
       | None => Raise (InvalidId case_id)
       | Some oid =>
           match collection st "case" !! oid with
           | None => Raise (HTTPException 404 "Case not found")
           | Some fields =>
               Return (<["id" := VStr (to_str oid)]> (delete "_id" fields))
           end
       end
   end, db).
Proof.
  unfold get_case, ObjectId_new, find_one. run_handler.
  destruct db as [st|]; [|done].
  rewrite bool_decide_eq_false_2 by done.
  destruct (of_str case_id) as [oid|]; [|done]. cbn beta iota.
  destruct (collection st "case" !! oid) as [fields|]; [|done].
  cbn [fmap option_fmap option_map].
  by rewrite truthy_with_id, as_str_id_with_id.
Qed.

(** C1. With the store available, [get_case] on a string that
    [ObjectId] rejects ([of_str] gives [None]: its length is not 24, or it
    is not made of pairs of hexadecimal digits and whitespace around them)
    raises [InvalidId], which the handler lets escape (a 500 response, not
    a 404 or 400); on a string [ObjectId] accepts, with no document under
    the parsed identifier, it raises the 404 "Case not found" (so does a
    string of 24 characters padded with whitespace); otherwise it returns
    the stored record with ["_id"] replaced by the public ["id"]. Without
    a store it raises the 500 "Database not available" whatever the id. *)
Theorem get_case_spec (st : Store) (case_id : string) :
  (of_str case_id = None →
   get_case case_id (Some st) = (Raise (InvalidId case_id), Some st)
   ∧ response_status (run (get_case case_id) (Some st)) = 500)
  ∧ (∀ oid : ObjectId,
       of_str case_id = Some oid → collection st "case" !! oid = None →
       get_case case_id (Some st)
       = (Raise (HTTPException 404 "Case not found"), Some st))
  ∧ (∀ (oid : ObjectId) (fields : dict),
       of_str case_id = Some oid →
       collection st "case" !! oid = Some fields →
       ∃ doc : dict,
         get_case case_id (Some st) = (Return doc, Some st)
         ∧ doc = <["id" := VStr (to_str oid)]> (delete "_id" fields)
         ∧ doc !! "id" = Some (VStr (to_str oid))
         ∧ doc !! "_id" = None
         ∧ ∀ k : string, k ≠ "id" → k ≠ "_id" → doc !! k = fields !! k)
  ∧ get_case case_id None
    = (Raise (HTTPException 500 "Database not available"), None).
Proof.
  unfold run. rewrite !get_case_run.
  split; [by intros ->|]. split; [by intros oid -> ->|]. split; [|done].
  intros oid fields -> ->. eexists. split; [done|]. split; [done|].
  split; [apply lookup_insert_eq|]. split.
  - rewrite lookup_insert_ne by done. apply lookup_delete_eq.
  - intros k Hid H_id. rewrite lookup_insert_ne by done.
    by rewrite lookup_delete_ne.
Qed.

Lemma get_case_spec_witness :
  ∃ doc : dict,
    get_case id1 store1 = (Return doc, store1)
    ∧ doc !! "id" = Some (VStr id1)
    ∧ doc !! "_id" = None
    ∧ doc !! "username" = Some (VStr "scammer123").
Proof.
  destruct (get_case_spec st1 id1) as (_ & _ & Hfound & _).
  destruct (Hfound (generate 0) (model_dump case1))
    as (doc & Hrun & _ & Hid & H_id & Hother); [reflexivity..|].
  exists doc. repeat split; [done..|].
  rewrite Hother by done. reflexivity.
Defined.

(** C1 as written fails: a malformed id is answered neither as a 404 nor
    as a 400. With a store the [InvalidId] escapes the handler (a 500
    response), and without one the handler raises its own 500. *)
Lemma get_case_malformed_id_not_client_error :
  of_str "not-an-id" = None
  ∧ run (get_case "not-an-id") store1 = Raise (InvalidId "not-an-id")
  ∧ response_status (run (get_case "not-an-id") store1) = 500
  ∧ run (get_case "not-an-id") None
    = Raise (HTTPException 500 "Database not available")
  ∧ ¬ (response_status (run (get_case "not-an-id") store1) = 404
       ∨ response_status (run (get_case "not-an-id") store1) = 400).
Proof.
  repeat split; try reflexivity.
  intros [H | H]; vm_compute in H; discriminate.
Qed.

(** ** Adding evidence *)

(** [add_evidence] as a decision table: the store changes only on the
    branch that inserts. *)
Lemma add_evidence_run (db : DB) (payload : EvidenceCreate.t) :
  add_evidence payload db =
  match db with
  | None => (Raise (HTTPException 500 "Database not available"), None)
  | Some st =>
      match of_str (EvidenceCreate.case_id payload) with
      | None => (Raise (InvalidId (EvidenceCreate.case_id payload)), db)
      | Some oid =>
          match collection st "case" !! oid with
          | None => (Raise (HTTPException 404 "Case not found"), db)
          | Some _ =>
              let evidence_id := generate (oid_counter st) in
              let record :=
                Evidence.mk (EvidenceCreate.case_id payload)
                  (EvidenceCreate.type payload) (EvidenceCreate.url payload)
                  (EvidenceCreate.description payload) in
              (Return {[ "id" := VStr (to_str evidence_id) ]},
               Some (mkStore
                       (<["evidence" :=
                            <[evidence_id := model_dump record]>
                              (collection st "evidence")]> (collections st))
                       (oid_counter st + 1)))
          end
      end
  end.
Proof.
  unfold add_evidence, ObjectId_new, find_one, create_document, EvidenceSchema.
  run_handler.
  destruct db as [st|]; [|done].
  rewrite bool_decide_eq_false_2 by done.
  destruct (of_str (EvidenceCreate.case_id payload)) as [oid|]; [|done].
  cbn beta iota.
  destruct (collection st "case" !! oid) as [fields|]; [|done].
  cbn [fmap option_fmap option_map truthy_opt_dict].
  by rewrite truthy_with_id.
Qed.

(** C2. With the store available, [add_evidence] on a [case_id] that
    [ObjectId] rejects ([of_str] gives [None]) raises [InvalidId] (not the
    404) and inserts nothing; on a [case_id] it accepts, with no case
    under the parsed identifier, it raises the 404 "Case not found" and
    inserts nothing; when the case exists, the validated
    evidence record is inserted into the evidence collection under the
    identifier the store generates, whose string form is returned. Without
    a store it raises the 500 and inserts nothing. *)
Theorem add_evidence_spec (st : Store) (payload : EvidenceCreate.t) :
  (of_str (EvidenceCreate.case_id payload) = None →
   add_evidence payload (Some st)
   = (Raise (InvalidId (EvidenceCreate.case_id payload)), Some st))
  ∧ (∀ oid : ObjectId,
       of_str (EvidenceCreate.case_id payload) = Some oid →
       collection st "case" !! oid = None →
       add_evidence payload (Some st)
       = (Raise (HTTPException 404 "Case not found"), Some st))
  ∧ (∀ (oid : ObjectId) (fields : dict),
       of_str (EvidenceCreate.case_id payload) = Some oid →
       collection st "case" !! oid = Some fields →
       ∃ (evidence_id : ObjectId) (st' : Store),
         add_evidence payload (Some st)
         = (Return {[ "id" := VStr (to_str evidence_id) ]}, Some st')
         ∧ collection st' "evidence" !! evidence_id
           = Some (model_dump
                     (Evidence.mk (EvidenceCreate.case_id payload)
                        (EvidenceCreate.type payload)
                        (EvidenceCreate.url payload)
                        (EvidenceCreate.description payload)))
         ∧ (∀ other : ObjectId, other ≠ evidence_id →
              collection st' "evidence" !! other
              = collection st "evidence" !! other)
         ∧ collection st' "case" = collection st "case")
  ∧ add_evidence payload None
    = (Raise (HTTPException 500 "Database not available"), None).
Proof.
  rewrite !add_evidence_run.
  split; [by intros ->|]. split; [by intros oid -> ->|]. split; [|done].
  intros oid fields -> ->. cbn zeta. eexists _, _. split; [done|].
  rewrite collection_insert. split; [apply lookup_insert_eq|]. split.
  - intros other Hother. by rewrite lookup_insert_ne.
  - by rewrite (collection_insert_ne _ _ _ _ _ (oid_counter st)).
Qed.

Lemma add_evidence_spec_witness :
  ∃ (evidence_id : ObjectId) (st' : Store),
    add_evidence evidence1 store1
    = (Return {[ "id" := VStr (to_str evidence_id) ]}, Some st')
    ∧ collection st' "evidence" !! evidence_id
      = Some (model_dump (Evidence.mk id1 "screenshot" None None)).
Proof.
  destruct (add_evidence_spec st1 evidence1) as (_ & _ & Hfound & _).
  destruct (Hfound (generate 0) (model_dump case1))
    as (evidence_id & st' & Hrun & Hin & _); [reflexivity..|].
  by exists evidence_id, st'.
Defined.

(** C2 as written fails: for a [case_id] that [ObjectId] rejects the
    failure is the escaping [InvalidId] (a 500 response), not the 404;
    nothing is inserted all the same. *)
Lemma add_evidence_malformed_case_id_not_404 :
  of_str (EvidenceCreate.case_id evidence_bad_id) = None
  ∧ run (add_evidence evidence_bad_id) store1 = Raise (InvalidId "not-an-id")
  ∧ run (add_evidence evidence_bad_id) store1
    ≠ Raise (HTTPException 404 "Case not found")
  ∧ response_status (run (add_evidence evidence_bad_id) store1) ≠ 404
  ∧ exec (add_evidence evidence_bad_id) store1 = store1.
Proof.
  repeat split; try reflexivity.
  - intros H. vm_compute in H. discriminate.
  - intros H. vm_compute in H. discriminate.
Qed.

(** ** Updating a case *)

Lemma exclude_none_lookup (payload : CaseUpdate.t) (k : string) :
  exclude_none (model_dump payload) !! k =
  if bool_decide (k = "status") then VStr <$> CaseUpdate.status payload
  else if bool_decide (k = "notes") then VStr <$> CaseUpdate.notes payload
  else if bool_decide (k = "risk_score")
       then VInt <$> CaseUpdate.risk_score payload
  else None.
Proof.
  unfold exclude_none. rewrite map_lookup_filter.
  unfold model_dump, CaseUpdate_model.
  repeat case_bool_decide; subst; simplify_map_eq.
  - by destruct (CaseUpdate.status payload).
  - by destruct (CaseUpdate.notes payload).
  - by destruct (CaseUpdate.risk_score payload).
  - done.
Qed.

Lemma supplied_nil (payload : CaseUpdate.t) :
  supplied payload = [] ↔ exclude_none (model_dump payload) = ∅.
Proof.
  split.
  - intros Hnil. apply map_eq. intros k.
    rewrite exclude_none_lookup, lookup_empty. unfold supplied in Hnil.
    destruct (CaseUpdate.status payload), (CaseUpdate.notes payload),
      (CaseUpdate.risk_score payload); try discriminate.
    by repeat case_bool_decide.
  - intros Hempty. unfold supplied.
    pose proof (exclude_none_lookup payload "status") as Hs.
    pose proof (exclude_none_lookup payload "notes") as Hn.
    pose proof (exclude_none_lookup payload "risk_score") as Hr.
    rewrite Hempty, lookup_empty in Hs, Hn, Hr. cbn in Hs, Hn, Hr.
    destruct (CaseUpdate.status payload), (CaseUpdate.notes payload),
      (CaseUpdate.risk_score payload); done.
Qed.

Lemma not_supplied_lookup (payload : CaseUpdate.t) (k : string) :
  k ∉ supplied payload → exclude_none (model_dump payload) !! k = None.
Proof.
  intros Hk. rewrite exclude_none_lookup. unfold supplied in Hk.
  repeat case_bool_decide; subst; try done.
  - destruct (CaseUpdate.status payload); [|done]. set_solver.
  - destruct (CaseUpdate.notes payload); [|done]. set_solver.
  - destruct (CaseUpdate.risk_score payload); [|done]. set_solver.
Qed.

(** [update_case] as a decision table. *)
Lemma update_case_run (db : DB) (case_id : string)
    (payload : CaseUpdate.t) :
  update_case case_id payload db =
  match db with
  | None => (Raise (HTTPException 500 "Database not available"), None)
  | Some st =>
      if bool_decide (supplied payload = [])
      then (Return {[ "updated" := VBool false ]}, db)
      else
        match of_str case_id with
        | None => (Raise (InvalidId case_id), db)
        | Some oid =>
            match collection st "case" !! oid with
            | None => (Raise (HTTPException 404 "Case not found"), db)
            | Some fields =>
                (Return {[ "updated" := VBool true ]},
                 Some (mkStore
                         (<["case" :=
                              <[oid := exclude_none (model_dump payload) ∪ fields]>
                                (collection st "case")]> (collections st))
                         (oid_counter st)))
            end
        end
  end.
Proof.
  unfold update_case, ObjectId_new, update_one, truthy_dict. run_handler.
  destruct db as [st|]; [|done].
  rewrite bool_decide_eq_false_2 by done.
  rewrite (bool_decide_ext _ _ (supplied_nil payload)).
  destruct (bool_decide (exclude_none (model_dump payload) = ∅)); [done|].
  cbn [negb].
  destruct (of_str case_id) as [oid|]; [|done]. cbn beta iota.
  by destruct (collection st "case" !! oid) as [fields|].
Qed.

(** C3. With the store available: a body that supplies no field is
    answered [{updated: false}] and nothing is written (the id is not even
    parsed); a body that supplies fields for an id that [ObjectId]
    accepts, with no document under the parsed identifier, raises the 404
    "Case not found" and writes nothing; when a document has the parsed
    identifier the supplied fields are merged into it and the answer is
    [{updated: true}]. Without a store the handler raises the 500 before
    anything else, and with fields supplied an id that [ObjectId] rejects
    ([of_str] gives [None]) raises [InvalidId]. *)
Theorem update_case_spec (st : Store) (case_id : string)
    (payload : CaseUpdate.t) :
  (supplied payload = [] →
   update_case case_id payload (Some st)
   = (Return {[ "updated" := VBool false ]}, Some st))
  ∧ (∀ oid : ObjectId,
       supplied payload ≠ [] → of_str case_id = Some oid →
       collection st "case" !! oid = None →
       update_case case_id payload (Some st)
       = (Raise (HTTPException 404 "Case not found"), Some st))
  ∧ (∀ (oid : ObjectId) (fields : dict),
       supplied payload ≠ [] → of_str case_id = Some oid →
       collection st "case" !! oid = Some fields →
       ∃ st' : Store,
         update_case case_id payload (Some st)
         = (Return {[ "updated" := VBool true ]}, Some st')
         ∧ collection st' "case" !! oid
           = Some (exclude_none (model_dump payload) ∪ fields))
  ∧ (supplied payload ≠ [] → of_str case_id = None →
     update_case case_id payload (Some st)
     = (Raise (InvalidId case_id), Some st))
  ∧ update_case case_id payload None
    = (Raise (HTTPException 500 "Database not available"), None).
Proof.
  rewrite !update_case_run.
  split; [by intros ->|].
  split; [intros oid Hs -> ->; by rewrite bool_decide_eq_false_2|].
  split; [|split; [intros Hs ->; by rewrite bool_decide_eq_false_2|done]].
  intros oid fields Hs -> ->. rewrite bool_decide_eq_false_2 by done.
  eexists. split; [done|]. rewrite collection_insert. apply lookup_insert_eq.
Qed.

Lemma update_case_spec_witness :
  update_case id1 empty_update store1
  = (Return {[ "updated" := VBool false ]}, store1)
  ∧ update_case (to_str (generate 7)) notes_only store1
    = (Raise (HTTPException 404 "Case not found"), store1)
  ∧ ∃ st' : Store,
      update_case id1 notes_only store1
      = (Return {[ "updated" := VBool true ]}, Some st')
      ∧ collection st' "case" !! generate 0
        = Some (exclude_none (model_dump notes_only) ∪ model_dump case1).
Proof.
  split; [|split].
  - apply (update_case_spec st1 id1 empty_update). reflexivity.
  - destruct (update_case_spec st1 (to_str (generate 7)) notes_only)
      as (_ & Habsent & _).
    apply (Habsent (generate 7)); [discriminate|reflexivity..].
  - destruct (update_case_spec st1 id1 notes_only) as (_ & _ & Hfound & _).
    apply (Hfound (generate 0) (model_dump case1));
      [discriminate|reflexivity..].
Defined.

(** C3 as written fails in two places: without a store an empty body is
    answered with the 500, not [{updated: false}]; and with fields
    supplied, a string that [ObjectId] rejects (so matches no document)
    raises [InvalidId], not the 404. *)
Lemma update_case_not_always_as_claimed :
  supplied empty_update = []
  ∧ run (update_case id1 empty_update) None
    = Raise (HTTPException 500 "Database not available")
  ∧ run (update_case id1 empty_update) None
    ≠ Return {[ "updated" := VBool false ]}
  ∧ run (update_case "not-an-id" notes_only) store1
    = Raise (InvalidId "not-an-id")
  ∧ run (update_case "not-an-id" notes_only) store1
    ≠ Raise (HTTPException 404 "Case not found").
Proof.
  repeat split; try reflexivity.
  - intros H. vm_compute in H. discriminate.
  - intros H. vm_compute in H. discriminate.
Qed.

(** Ids of 24 characters padded with whitespace parse, match no case and
    are answered 404 by the three handlers. *)
Lemma whitespace_ids_not_found :
  run (get_case blank_id) store1 = Raise (HTTPException 404 "Case not found")
  ∧ run (get_case padded_id) store1
    = Raise (HTTPException 404 "Case not found")
  ∧ run (update_case padded_id notes_only) store1
    = Raise (HTTPException 404 "Case not found")
  ∧ run (add_evidence (EvidenceCreate.mk padded_id "link" None None)) store1
    = Raise (HTTPException 404 "Case not found").
Proof. repeat split; vm_compute; reflexivity. Qed.

(** C4. After an update that returns, every stored case record keeps the
    value (or the absence) of every field the body did not supply; in
    particular the updated record keeps [status] and [risk_score] when only
    [notes] is supplied, and so on for each subset. *)
Theorem update_case_frame (st : Store) (case_id : string)
    (payload : CaseUpdate.t) (r : dict) (db' : DB) :
  update_case case_id payload (Some st) = (Return r, db') →
  ∃ st', db' = Some st' ∧
    ∀ (oid : ObjectId) (fields : dict),
      collection st "case" !! oid = Some fields →
      ∃ fields', collection st' "case" !! oid = Some fields' ∧
        ∀ k : string, k ∉ supplied payload → fields' !! k = fields !! k.
Proof.
  rewrite update_case_run. intros Hrun.
  case_bool_decide; [injection Hrun as <- <-; eauto|].
  destruct (of_str case_id) as [target|]; [|done].
  destruct (collection st "case" !! target) as [old|] eqn:Hold; [|done].
  injection Hrun as <- <-. eexists; split; [done|].
  intros oid fields Hfields. rewrite collection_insert.
  destruct (decide (oid = target)) as [->|Hne].
  - rewrite lookup_insert_eq. eexists; split; [done|].
    intros k Hk. rewrite lookup_union_r by by apply not_supplied_lookup.
    congruence.
  - rewrite lookup_insert_ne by done. eauto.
Qed.

Lemma update_case_frame_witness :
  ∃ st', exec (update_case id1 notes_only) store1
         = Some st' ∧
    ∀ (oid : ObjectId) (fields : dict),
      collection st1 "case" !! oid = Some fields →
      ∃ fields', collection st' "case" !! oid = Some fields' ∧
        ∀ k : string, k ∉ supplied notes_only →
          fields' !! k = fields !! k.
Proof.
  apply (update_case_frame st1 id1 notes_only
           {[ "updated" := VBool true ]}).
  vm_compute. reflexivity.
Defined.


(** ** Well-formed stores *)

Lemma store_wf_insert (st : Store) (name : string) (oid : ObjectId)
    (data : dict) (counter : N) :
  store_wf st → (oid_counter st ≤ counter)%N →
  (∃ n : N, (n < counter)%N ∧ oid = generate n) →
  store_wf (mkStore
              (<[name := <[oid := data]> (collection st name)]>
                 (collections st))
              counter).
Proof.
  intros Hwf Hle Hoid name' oid' Hin. cbn [oid_counter].
  destruct (decide (name = name')) as [<-|Hname].
  - rewrite collection_insert in Hin.
    destruct (decide (oid = oid')) as [<-|Hne]; [done|].
    rewrite lookup_insert_ne in Hin by done.
    destruct (Hwf name oid' Hin) as (n & Hn & ->). exists n. split; [lia|done].
  - rewrite (collection_insert_ne _ _ _ _ _ (oid_counter st)) in Hin by done.
    destruct st as [colls c]. destruct (Hwf name' oid' Hin) as (n & Hn & ->).
    exists n. split; [cbn in *; lia|done].
Qed.

(** The handlers that write keep the store well-formed, so every insert
    they make is under an identifier no document had before. *)
Lemma create_case_wf (st : Store) (payload : CaseCreate.t) :
  store_wf st →
  ∃ st' : Store, exec (create_case payload) (Some st) = Some st'
                 ∧ store_wf st'.
Proof.
  intros Hwf. eexists. split; [reflexivity|].
  apply store_wf_insert; [done|lia|]. exists (oid_counter st). split; [lia|done].
Qed.

Lemma add_evidence_wf (st : Store) (payload : EvidenceCreate.t) :
  store_wf st →
  ∃ st' : Store, exec (add_evidence payload) (Some st) = Some st'
                 ∧ store_wf st'.
Proof.
  intros Hwf. unfold exec. rewrite add_evidence_run.
  destruct (of_str (EvidenceCreate.case_id payload)) as [oid|]; [|by eauto].
  destruct (collection st "case" !! oid); [|by eauto].
  eexists. split; [reflexivity|].
  apply store_wf_insert; [done|lia|]. exists (oid_counter st). split; [lia|done].
Qed.

Lemma update_case_wf (st : Store) (case_id : string)
    (payload : CaseUpdate.t) :
  store_wf st →
  ∃ st' : Store, exec (update_case case_id payload) (Some st) = Some st'
                 ∧ store_wf st'.
Proof.
  intros Hwf. unfold exec. rewrite update_case_run.
  case_bool_decide; [by eauto|].
  destruct (of_str case_id) as [oid|]; [|by eauto].
  destruct (collection st "case" !! oid) eqn:Hin; [|by eauto].
  eexists. split; [reflexivity|].
  apply store_wf_insert; [done|lia|]. apply (Hwf "case"). by rewrite Hin.
Qed.

(** ** Creating and listing *)

Lemma elem_of_documents (st : Store) (name : string) (d : dict) :
  d ∈ documents st name ↔
  ∃ (oid : ObjectId) (fields : dict),
    collection st name !! oid = Some fields ∧ d = with_id oid fields.
Proof.
  unfold documents. rewrite list_elem_of_fmap. split.
  - intros [[oid fields] [-> Hin]]. apply elem_of_map_to_list in Hin. eauto.
  - intros (oid & fields & Hin & ->). exists (oid, fields).
    split; [done|]. by apply elem_of_map_to_list.
Qed.

(** What [get_documents] hands to a listing handler, once in public
    form. *)
Lemma elem_of_listing (st : Store) (name : string) (filter_dict : dict)
    (n : nat) (r : dict) :
  r ∈ as_str_id <$>
        take n (filter (λ d, matches filter_dict d = true) (documents st name)) →
  ∃ (oid : ObjectId) (fields : dict),
    collection st name !! oid = Some fields
    ∧ matches filter_dict (with_id oid fields) = true
    ∧ r = <["id" := VStr (to_str oid)]> (delete "_id" fields).
Proof.
  rewrite list_elem_of_fmap. intros (d & -> & Hd).
  apply subseteq_take, list_elem_of_filter in Hd as [Hmatch Hd].
  apply elem_of_documents in Hd as (oid & fields & Hin & ->).
  exists oid, fields. by rewrite as_str_id_with_id.
Qed.

Lemma create_case_sample :
  create_case sample_case (Some empty_store)
  = (Return {[ "id" := VStr id1 ]}, store1).
Proof. vm_compute. reflexivity. Qed.

(** The walk-through of the specification: create a case, read it back,
    attach a screenshot, list the evidence of the case. *)
Example end_to_end :
  run (get_case id1) store1
  = Return {[ "id" := VStr id1; "username" := VStr "scammer123";
              "allegations" := VStr "fake giveaway";
              "reporter_name" := VNone; "reporter_contact" := VNone;
              "status" := VStr "open"; "risk_score" := VNone;
              "notes" := VNone ]}
  ∧ run (add_evidence evidence1) store1
    = Return {[ "id" := VStr (to_str (generate 1)) ]}
  ∧ run (list_evidence id1 None) (exec (add_evidence evidence1) store1)
    = Return [ {[ "id" := VStr (to_str (generate 1));
                  "case_id" := VStr id1; "type" := VStr "screenshot";
                  "url" := VNone; "description" := VNone ]} ]
  ∧ exec (add_evidence evidence1) store1 = Some st2
  ∧ run (list_evidence id1 None) store1 = Return [].
Proof. repeat split; vm_compute; reflexivity. Qed.

(** C5. With the store available, [create_case] returns an id under
    which [get_case] then finds a record whose [username] is the
    payload's and whose [status] is ["open"]. *)
Theorem create_case_then_get_case (st : Store) (payload : CaseCreate.t) :
  ∃ (case_id : string) (db' : DB) (doc : dict),
    create_case payload (Some st) = (Return {[ "id" := VStr case_id ]}, db')
    ∧ get_case case_id db' = (Return doc, db')
    ∧ doc !! "username" = Some (VStr (CaseCreate.username payload))
    ∧ doc !! "status" = Some (VStr "open").
Proof.
  eexists (to_str (generate (oid_counter st))), _, _.
  split; [reflexivity|].
  rewrite get_case_run, of_str_generate, collection_insert, lookup_insert_eq.
  split; [reflexivity|].
  split; rewrite lookup_insert_ne, lookup_delete_ne by done; reflexivity.
Qed.

Lemma list_cases_filter_nonempty (username status : option string) :
  list_cases_filter username status
  = provided_filters (nonempty username) (nonempty status).
Proof.
  unfold list_cases_filter, provided_filters, nonempty, truthy_str.
  destruct username as [u|], status as [s|]; cbn [of_opt_str negb];
    repeat (destruct (String.eqb _ ""); cbn [negb]); try reflexivity.
Qed.

(** C6. [list_cases] queries the ["case"] collection with a filter that
    holds exactly the filters the client gave as non-empty strings (an
    absent filter and an empty one are both left out), with limit 50
    unless one is given, and puts every document it gets back in public
    form: ["_id"] is removed, its string form is stored under ["id"], and
    the other fields stay. *)
Theorem list_cases_spec (username status : option string)
    (limit : option Z) :
  list_cases_filter username status
  = provided_filters (nonempty username) (nonempty status)
  ∧ list_cases username status limit
    = (docs ← get_documents "case"
                (provided_filters (nonempty username) (nonempty status))
                (default 50 limit);
       mret (as_str_id <$> docs))
  ∧ ∀ (d : dict) (oid : ObjectId),
      d !! "_id" = Some (VOid oid) →
      as_str_id d !! "_id" = None
      ∧ as_str_id d !! "id" = Some (VStr (to_str oid))
      ∧ ∀ k : string, k ≠ "id" → k ≠ "_id" → as_str_id d !! k = d !! k.
Proof.
  split; [apply list_cases_filter_nonempty|].
  split; [unfold list_cases; by rewrite list_cases_filter_nonempty|].
  intros d oid Hd. unfold as_str_id. rewrite Hd. cbn [truthy py_str].
  split; [|split].
  - rewrite lookup_insert_ne by done. apply lookup_delete_eq.
  - apply lookup_insert_eq.
  - intros k Hid H_id. rewrite lookup_insert_ne by done.
    by rewrite lookup_delete_ne.
Qed.

Lemma list_cases_spec_witness :
  as_str_id (with_id (generate 0) (model_dump case1)) !! "_id" = None
  ∧ as_str_id (with_id (generate 0) (model_dump case1)) !! "id"
    = Some (VStr id1).
Proof.
  destruct (list_cases_spec None None None) as (_ & _ & Hpublic).
  destruct (Hpublic (with_id (generate 0) (model_dump case1)) (generate 0))
    as (H_id & Hid & _); [reflexivity|].
  by split.
Defined.

(** On a store, the records listed are stored cases that match the
    filter. *)
Lemma list_cases_records (st : Store) (username status : option string)
    (limit : option Z) :
  ∃ docs : list dict,
    list_cases username status limit (Some st) = (Return docs, Some st)
    ∧ ∀ r : dict, r ∈ docs →
        ∃ (oid : ObjectId) (fields : dict),
          collection st "case" !! oid = Some fields
          ∧ matches (list_cases_filter username status)
              (with_id oid fields) = true
          ∧ r = <["id" := VStr (to_str oid)]> (delete "_id" fields).
Proof.
  eexists. split; [reflexivity|].
  intros r Hr. by apply elem_of_listing in Hr.
Qed.

(** C6 as written fails: a [username] given as the empty string is a
    filter the client provided, yet the query carries no [username]
    entry. *)
Lemma list_cases_filter_drops_empty_string :
  provided_filters (Some "") None = {[ "username" := VStr "" ]}
  ∧ list_cases_filter (Some "") None = ∅
  ∧ list_cases_filter (Some "") None ≠ provided_filters (Some "") None.
Proof.
  repeat split; try reflexivity.
  intros H. apply (f_equal (lookup "username")) in H.
  vm_compute in H. discriminate.
Qed.

(** C10. An empty [username] or [status] is treated as an absent one: the
    handler is the same function of its other arguments, so it sends the
    same query and returns the same result on every store. *)
Theorem list_cases_empty_string_as_absent (username status : option string)
    (limit : option Z) :
  list_cases (Some "") status limit = list_cases None status limit
  ∧ list_cases username (Some "") limit = list_cases username None limit
  ∧ list_cases_filter (Some "") status !! "username" = None
  ∧ list_cases_filter username (Some "") !! "status" = None.
Proof.
  repeat split; try reflexivity.
  - unfold list_cases_filter. cbn [truthy_str String.eqb negb].
    destruct (truthy_str status); by simplify_map_eq.
  - unfold list_cases_filter. cbn [truthy_str String.eqb negb].
    by destruct (truthy_str username).
Qed.

(** C7. [list_evidence] queries the ["evidence"] collection by string
    equality on the [case_id] field with the id exactly as given (it is
    never parsed as an identifier), with limit 200 unless one is given.
    Every record returned is a stored evidence document whose [case_id] is
    that string, in public form, and there are at most [limit] of them (a
    limit below zero counting as zero). The store is left as it was. *)
Theorem list_evidence_spec (st : Store) (case_id : string)
    (limit : option Z) :
  list_evidence case_id limit
  = (docs ← get_documents "evidence" {[ "case_id" := VStr case_id ]}
              (default 200 limit);
     mret (as_str_id <$> docs))
  ∧ ∃ docs : list dict,
      list_evidence case_id limit (Some st) = (Return docs, Some st)
      ∧ (length docs ≤ Z.to_nat (default 200%Z limit))%nat
      ∧ ∀ r : dict, r ∈ docs →
          r !! "case_id" = Some (VStr case_id)
          ∧ ∃ (oid : ObjectId) (fields : dict),
              collection st "evidence" !! oid = Some fields
              ∧ fields !! "case_id" = Some (VStr case_id)
              ∧ r = <["id" := VStr (to_str oid)]> (delete "_id" fields).
Proof.
  split; [reflexivity|].
  eexists. split; [reflexivity|]. split.
  - rewrite length_fmap, length_take. lia.
  - intros r Hr.
    apply elem_of_listing in Hr as (oid & fields & Hin & Hm & ->).
    unfold matches in Hm. apply bool_decide_eq_true_1 in Hm.
    apply map_Forall_singleton in Hm.
    rewrite with_id_lookup_ne in Hm by done.
    split; [|by eauto].
    by rewrite lookup_insert_ne, lookup_delete_ne.
Qed.

Lemma list_evidence_spec_witness :
  ∃ docs : list dict,
    list_evidence id1 None (Some st2) = (Return docs, Some st2)
    ∧ (length docs ≤ 200)%nat
    ∧ ∀ r : dict, r ∈ docs → r !! "case_id" = Some (VStr id1).
Proof.
  destruct (list_evidence_spec st2 id1 None)
    as (_ & docs & Hrun & Hlen & Hdocs).
  exists docs. split; [done|]. split; [done|].
  intros r Hr. by destruct (Hdocs r Hr).
Defined.

(** ** Validation *)

Lemma Field_ge_le_accepts (loc : string) (lo hi z : Z) :
  Field_ge_le loc lo hi (Some z) = Return (Some z) ↔ lo ≤ z ≤ hi.
Proof.
  unfold Field_ge_le.
  destruct (lo <=? z) eqn:Hlo, (z <=? hi) eqn:Hhi; cbn [andb];
    split; try done; lia.
Qed.

Lemma Field_ge_le_rejects (loc : string) (lo hi z : Z) :
  Field_ge_le loc lo hi (Some z) = Raise (ValidationError loc)
  ↔ z < lo ∨ hi < z.
Proof.
  unfold Field_ge_le.
  destruct (lo <=? z) eqn:Hlo, (z <=? hi) eqn:Hhi; cbn [andb];
    split; try done; lia.
Qed.

(** C8. A [risk_score] of 101 or -1 is rejected with a validation error
    on that field and 0 or 100 is accepted, by the [Case] schema and by the
    [CaseUpdate] request model alike, whatever the other fields. *)
Theorem risk_score_boundaries (username : string)
    (allegations reporter_name reporter_contact status notes : option string) :
  CaseSchema username allegations reporter_name reporter_contact status
    (Some 101) notes = Raise (ValidationError "risk_score")
  ∧ CaseSchema username allegations reporter_name reporter_contact status
      (Some (-1)) notes = Raise (ValidationError "risk_score")
  ∧ CaseSchema username allegations reporter_name reporter_contact status
      (Some 0) notes
    = Return (Case.mk username allegations reporter_name reporter_contact
                (default "open" status) (Some 0) notes)
  ∧ CaseSchema username allegations reporter_name reporter_contact status
      (Some 100) notes
    = Return (Case.mk username allegations reporter_name reporter_contact
                (default "open" status) (Some 100) notes)
  ∧ CaseUpdate_validate status notes (Some 101)
    = Raise (ValidationError "risk_score")
  ∧ CaseUpdate_validate status notes (Some (-1))
    = Raise (ValidationError "risk_score")
  ∧ CaseUpdate_validate status notes (Some 0)
    = Return (CaseUpdate.mk status notes (Some 0))
  ∧ CaseUpdate_validate status notes (Some 100)
    = Return (CaseUpdate.mk status notes (Some 100)).
Proof. repeat split; reflexivity. Qed.

(** ** Public lookup *)

(** C9. [public_lookup] returns, for every username and whatever the
    store holds (or with no store at all), the placeholder record: the
    username echoed, [is_private] true, the other fields [None]; it
    leaves the store as it was. *)
Theorem public_lookup_placeholder (username : string) (db : DB) :
  public_lookup username db
  = (Return (PublicProfileResponse.mk username None None None (Some true)),
     db)
  ∧ response_status (run (public_lookup username) db) = 200.
Proof. split; reflexivity. Qed.

(** * Further properties of the handlers *)

(** ** Public form of a document *)

(** X1. Putting a document in public form twice is the same as doing it
    once. *)
Theorem as_str_id_idempotent (doc : dict) :
  as_str_id (as_str_id doc) = as_str_id doc.
Proof.
  unfold as_str_id at 2 3.
  destruct (doc !! "_id") as [v|] eqn:Hid.
  - destruct (truthy v) eqn:Hv.
    + unfold as_str_id.
      by rewrite lookup_insert_ne, lookup_delete_eq by done.
    + unfold as_str_id. by rewrite Hid, Hv.
  - unfold as_str_id. by rewrite Hid.
Qed.

(** X2. [as_str_id] returns a document as it is exactly when the document
    has no ["_id"] or a falsy one ([None], [0], [False], the empty
    string): such an ["_id"] stays in place and no ["id"] is added. *)
Theorem as_str_id_unchanged_iff (doc : dict) :
  as_str_id doc = doc
  ↔ ∀ v : value, doc !! "_id" = Some v → truthy v = false.
Proof.
  unfold as_str_id. split.
  - intros Heq v Hv. rewrite Hv in Heq.
    destruct (truthy v); [|done].
    apply (f_equal (lookup "_id")) in Heq.
    rewrite lookup_insert_ne, lookup_delete_eq, Hv in Heq by done.
    discriminate.
  - intros Hfalsy. destruct (doc !! "_id") as [v|]; [|done].
    by rewrite (Hfalsy v).
Qed.

(** X3. With a truthy ["_id"], the public form has the key ["id"] in
    place of ["_id"] and otherwise the keys of the document; a field the
    document already had under ["id"] is overwritten by the string form of
    ["_id"]. *)
Theorem as_str_id_keys (doc : dict) (v : value) :
  doc !! "_id" = Some v → truthy v = true →
  dom (as_str_id doc) = {[ "id" ]} ∪ (dom doc ∖ {[ "_id" ]})
  ∧ as_str_id doc !! "id" = Some (VStr (py_str v)).
Proof.
  intros Hid Hv. unfold as_str_id. rewrite Hid, Hv. split.
  - by rewrite dom_insert_L, dom_delete_L.
  - apply lookup_insert_eq.
Qed.

Lemma as_str_id_keys_witness :
  dom (as_str_id {[ "_id" := VInt 7; "id" := VStr "old" ]})
  = {[ "id" ]} ∪ (dom ({[ "_id" := VInt 7; "id" := VStr "old" ]} : dict)
                    ∖ {[ "_id" ]})
  ∧ as_str_id {[ "_id" := VInt 7; "id" := VStr "old" ]} !! "id"
    = Some (VStr "7").
Proof.
  apply (as_str_id_keys {[ "_id" := VInt 7; "id" := VStr "old" ]} (VInt 7));
    reflexivity.
Defined.

Lemma to_str_inj (o1 o2 : ObjectId) : to_str o1 = to_str o2 → o1 = o2.
Proof.
  unfold to_str. intros Heq. apply (f_equal fromhex) in Heq.
  rewrite !fromhex_hex in Heq. congruence.
Qed.

(** X4. Public ids do not collide: two stored documents whose public
    forms carry the same ["id"] have the same native identifier. *)
Theorem public_id_injective (o1 o2 : ObjectId) (f1 f2 : dict) :
  as_str_id (with_id o1 f1) !! "id" = as_str_id (with_id o2 f2) !! "id" →
  o1 = o2.
Proof.
  rewrite !as_str_id_with_id, !lookup_insert_eq. intros Heq.
  apply to_str_inj. congruence.
Qed.

Lemma public_id_injective_witness : generate 0 = generate 0.
Proof.
  apply (public_id_injective (generate 0) (generate 0)
           (model_dump case1) ∅).
  reflexivity.
Defined.

(** ** Reading *)

Lemma st3_twelve_byte_ids : twelve_byte_ids st3.
Proof.
  intros oid [fields Hin]. unfold collection, st3 in Hin.
  cbn [collections] in Hin. rewrite lookup_singleton_eq in Hin.
  change (({[ generate 10 := model_dump case1 ]} : gmap ObjectId dict) !! oid
          = Some fields) in Hin.
  apply lookup_singleton_Some in Hin as [<- _]. reflexivity.
Qed.

(** X5. In a store whose cases have twelve-byte identifiers, the ["id"]
    of a record returned by [get_case] can be used to get the same record
    again, also when the request spelled the id differently (hexadecimal
    digits in upper case). *)
Theorem get_case_by_returned_id (st : Store) (case_id : string) (doc : dict)
    (db' : DB) :
  twelve_byte_ids st →
  get_case case_id (Some st) = (Return doc, db') →
  ∃ public_id : string,
    doc !! "id" = Some (VStr public_id)
    ∧ get_case public_id (Some st) = (Return doc, Some st).
Proof.
  intros Hids. rewrite get_case_run.
  destruct (of_str case_id) as [oid|] eqn:Hoid; [|done].
  destruct (collection st "case" !! oid) as [fields|] eqn:Hin; [|done].
  intros [= <- <-]. exists (to_str oid). split; [apply lookup_insert_eq|].
  rewrite get_case_run, (of_str_to_str oid).
  - by rewrite Hin.
  - apply Hids. by rewrite Hin.
Qed.

Lemma get_case_by_returned_id_witness :
  ∃ public_id : string,
    (<["id" := VStr "00000000000000000000000a"]> (model_dump case1) : dict)
      !! "id" = Some (VStr public_id)
    ∧ get_case public_id (Some st3)
      = (Return (<["id" := VStr "00000000000000000000000a"]>
                   (model_dump case1)), Some st3).
Proof.
  apply (get_case_by_returned_id st3 "00000000000000000000000A"
           (<["id" := VStr "00000000000000000000000a"]> (model_dump case1))
           (Some st3)).
  - exact st3_twelve_byte_ids.
  - vm_compute. reflexivity.
Defined.

(** X6. [get_case] answers 404 exactly when there is a store,
    [ObjectId] accepts the id and no case has the parsed identifier; it
    answers 200 exactly when there is a store and a case has the parsed
    identifier. Every other request is answered 500. *)
Theorem get_case_status (db : DB) (case_id : string) :
  (response_status (run (get_case case_id) db) = 404
   ↔ ∃ (st : Store) (oid : ObjectId),
       db = Some st ∧ of_str case_id = Some oid
       ∧ collection st "case" !! oid = None)
  ∧ (response_status (run (get_case case_id) db) = 200
     ↔ ∃ (st : Store) (oid : ObjectId),
         db = Some st ∧ of_str case_id = Some oid
         ∧ is_Some (collection st "case" !! oid))
  ∧ (response_status (run (get_case case_id) db) = 200
     ∨ response_status (run (get_case case_id) db) = 404
     ∨ response_status (run (get_case case_id) db) = 500).
Proof.
  unfold run. rewrite get_case_run. cbn [fst].
  destruct db as [st|]; cbn [response_status].
  - destruct (of_str case_id) as [oid|] eqn:Hoid; cbn [response_status].
    + destruct (collection st "case" !! oid) as [fields|] eqn:Hin;
        cbn [response_status].
      * split; [|split; [|by left]].
        -- split; [done|]. intros (st' & oid' & [= <-] & [= <-] & Habs).
           congruence.
        -- split; [|done]. intros _. exists st, oid. by rewrite Hin.
      * split; [|split; [|by right; left]].
        -- split; [|done]. intros _. by exists st, oid.
        -- split; [done|]. intros (st' & oid' & [= <-] & [= <-] & [? Hf]).
           congruence.
    + split; [|split; [|by right; right]].
      * split; [done|]. by intros (st' & oid' & _ & ? & _).
      * split; [done|]. by intros (st' & oid' & _ & ? & _).
  - split; [|split; [|by right; right]].
    + split; [done|]. by intros (st' & oid' & ? & _).
    + split; [done|]. by intros (st' & oid' & ? & _).
Qed.

(** X7. Without a store every case and evidence handler is answered 500
    and the handle stays [None]; this includes an update with an empty
    body and requests with a malformed id. [public_lookup] is answered
    200. *)
Theorem no_store_is_500 (s : string) (create : CaseCreate.t)
    (update : CaseUpdate.t) (evidence : EvidenceCreate.t)
    (username status : option string) (limit : option Z) :
  response_status (run (create_case create) None) = 500
  ∧ response_status (run (list_cases username status limit) None) = 500
  ∧ response_status (run (get_case s) None) = 500
  ∧ response_status (run (update_case s update) None) = 500
  ∧ response_status (run (add_evidence evidence) None) = 500
  ∧ response_status (run (list_evidence s limit) None) = 500
  ∧ response_status (run (public_lookup s) None) = 200
  ∧ exec (create_case create) None = None
  ∧ exec (update_case s update) None = None
  ∧ exec (add_evidence evidence) None = None.
Proof. repeat split; reflexivity. Qed.

(** X8. An [update_case] or [add_evidence] that raises has written
    nothing: the store after the failed request is the store before it. *)
Theorem failure_writes_nothing (db : DB) (e : exn) (db' : DB) :
  (∀ (case_id : string) (payload : CaseUpdate.t),
     update_case case_id payload db = (Raise e, db') → db' = db)
  ∧ (∀ payload : EvidenceCreate.t,
       add_evidence payload db = (Raise e, db') → db' = db).
Proof.
  split.
  - intros case_id payload. rewrite update_case_run.
    destruct db as [st|]; [|congruence].
    case_bool_decide; [done|].
    destruct (of_str case_id) as [oid|]; [|congruence].
    destruct (collection st "case" !! oid); [done|congruence].
  - intros payload. rewrite add_evidence_run.
    destruct db as [st|]; [|congruence].
    destruct (of_str (EvidenceCreate.case_id payload)) as [oid|]; [|congruence].
    destruct (collection st "case" !! oid); [done|congruence].
Qed.

Lemma failure_writes_nothing_witness :
  exec (add_evidence evidence_bad_id) store1 = store1.
Proof.
  destruct (failure_writes_nothing store1 (InvalidId "not-an-id")
              (exec (add_evidence evidence_bad_id) store1)) as (_ & H).
  apply (H evidence_bad_id). reflexivity.
Defined.

(** ** Updating *)

Lemma updated_false_ne_true :
  ({[ "updated" := VBool false ]} : dict) ≠ {[ "updated" := VBool true ]}.
Proof.
  intros H. apply (f_equal (lookup "updated")) in H.
  rewrite !lookup_singleton_eq in H. discriminate.
Qed.

(** X9. After an update answered [{updated: true}], [get_case] on the
    same id returns a record in which every supplied field has the
    supplied value; a [risk_score] of 0 and an empty [status] or [notes]
    count as supplied. *)
Theorem update_case_then_get_case (st : Store) (case_id : string)
    (payload : CaseUpdate.t) (db' : DB) :
  update_case case_id payload (Some st)
  = (Return {[ "updated" := VBool true ]}, db') →
  ∃ doc : dict,
    get_case case_id db' = (Return doc, db')
    ∧ (∀ s : string, CaseUpdate.status payload = Some s →
         doc !! "status" = Some (VStr s))
    ∧ (∀ s : string, CaseUpdate.notes payload = Some s →
         doc !! "notes" = Some (VStr s))
    ∧ (∀ z : Z, CaseUpdate.risk_score payload = Some z →
         doc !! "risk_score" = Some (VInt z)).
Proof.
  rewrite update_case_run.
  case_bool_decide as Hsup;
    [intros [= Hbad]; by apply updated_false_ne_true in Hbad|].
  destruct (of_str case_id) as [oid|] eqn:Hoid; [|done].
  destruct (collection st "case" !! oid) as [fields|] eqn:Hin; [|done].
  intros [= <-]. rewrite get_case_run, Hoid, collection_insert, lookup_insert_eq.
  eexists. split; [done|].
  repeat split; intros x Hx;
    rewrite lookup_insert_ne, lookup_delete_ne by done;
    apply lookup_union_Some_l; rewrite exclude_none_lookup;
    repeat case_bool_decide; try done; by rewrite Hx.
Qed.

Lemma update_case_then_get_case_witness :
  ∃ doc : dict,
    get_case id1 (exec (update_case id1 full_update) store1)
    = (Return doc, exec (update_case id1 full_update) store1)
    ∧ (∀ s : string, CaseUpdate.status full_update = Some s →
         doc !! "status" = Some (VStr s))
    ∧ (∀ s : string, CaseUpdate.notes full_update = Some s →
         doc !! "notes" = Some (VStr s))
    ∧ (∀ z : Z, CaseUpdate.risk_score full_update = Some z →
         doc !! "risk_score" = Some (VInt z)).
Proof.
  apply (update_case_then_get_case st1 id1 full_update).
  vm_compute. reflexivity.
Defined.

(** X10. Sending the same update twice leaves the store as sending it
    once does, and is answered the same way. *)
Theorem update_case_idempotent (db : DB) (case_id : string)
    (payload : CaseUpdate.t) :
  update_case case_id payload (exec (update_case case_id payload) db)
  = update_case case_id payload db.
Proof.
  unfold exec. rewrite (update_case_run db).
  destruct db as [st|]; [|done].
  case_bool_decide as Hs; cbn [snd].
  { rewrite update_case_run. by rewrite bool_decide_eq_true_2. }
  destruct (of_str case_id) as [oid|] eqn:Hoid; cbn [snd].
  2: { rewrite update_case_run, Hoid. by rewrite bool_decide_eq_false_2. }
  destruct (collection st "case" !! oid) as [fields|] eqn:Hin; cbn [snd].
  2: { rewrite update_case_run, Hoid, Hin. by rewrite bool_decide_eq_false_2. }
  rewrite update_case_run, Hoid, bool_decide_eq_false_2 by done.
  rewrite collection_insert, lookup_insert_eq. cbn [collections oid_counter].
  rewrite !insert_insert_eq.
  by rewrite (assoc_L (∪)), (idemp_L (∪)).
Qed.

(** X11. [update_case] never creates or removes a document: the cases
    keep their identifiers, every other collection and the identifier
    counter are as before. *)
Theorem update_case_no_upsert (st : Store) (case_id : string)
    (payload : CaseUpdate.t) :
  ∃ st' : Store,
    exec (update_case case_id payload) (Some st) = Some st'
    ∧ dom (collection st' "case") = dom (collection st "case")
    ∧ (∀ name : string, name ≠ "case" →
         collection st' name = collection st name)
    ∧ oid_counter st' = oid_counter st.
Proof.
  unfold exec. rewrite update_case_run.
  case_bool_decide; [by eauto|].
  destruct (of_str case_id) as [oid|]; [|by eauto].
  destruct (collection st "case" !! oid) as [fields|] eqn:Hin; [|by eauto].
  eexists. split; [done|]. cbn [snd]. split; [|split; [|done]].
  - rewrite collection_insert, dom_insert_L.
    apply (elem_of_dom_2 (D := gset ObjectId)) in Hin.
    by apply subseteq_union_1_L, singleton_subseteq_l.
  - intros name Hname.
    rewrite (collection_insert_ne _ _ _ _ _ (oid_counter st)) by done.
    by destruct st.
Qed.

(** X12. An update cannot reset a field to [None]: a stored field that
    is [None] after [update_case] was [None] before it. *)
Theorem update_case_never_nulls (st : Store) (case_id : string)
    (payload : CaseUpdate.t) :
  ∃ st' : Store,
    exec (update_case case_id payload) (Some st) = Some st'
    ∧ ∀ (oid : ObjectId) (fields' : dict) (k : string),
        collection st' "case" !! oid = Some fields' →
        fields' !! k = Some VNone →
        ∃ fields : dict,
          collection st "case" !! oid = Some fields
          ∧ fields !! k = Some VNone.
Proof.
  assert (Hsame : ∀ (oid : ObjectId) (fields' : dict) (k : string),
             collection st "case" !! oid = Some fields' →
             fields' !! k = Some VNone →
             ∃ fields : dict,
               collection st "case" !! oid = Some fields
               ∧ fields !! k = Some VNone)
    by (intros oid fields' k Hin Hk; exists fields'; split; assumption).
  unfold exec. rewrite update_case_run.
  case_bool_decide as Hsup; [exists st; split; [reflexivity|exact Hsame]|].
  destruct (of_str case_id) as [target|];
    [|exists st; split; [reflexivity|exact Hsame]].
  destruct (collection st "case" !! target) as [old|] eqn:Hold;
    [|exists st; split; [reflexivity|exact Hsame]].
  eexists. split; [reflexivity|]. cbn [snd].
  intros oid fields' k. rewrite collection_insert.
  destruct (decide (target = oid)) as [<-|Hne].
  - rewrite lookup_insert_eq. intros Heq Hk.
    apply (inj Some) in Heq. subst fields'. exists old.
    split; [exact Hold|].
    apply lookup_union_Some_raw in Hk as [Hk|[_ Hk]]; [|exact Hk].
    rewrite exclude_none_lookup in Hk.
    destruct (CaseUpdate.status payload), (CaseUpdate.notes payload),
      (CaseUpdate.risk_score payload);
      repeat (case_bool_decide; [cbn in Hk; discriminate Hk|]);
      repeat case_bool_decide; cbn in Hk; discriminate Hk.
  - rewrite lookup_insert_ne by done. apply Hsame.
Qed.


(** X13. With fields supplied, [update_case] is answered with the status
    code [get_case] gives for the same id on the same store, and
    [add_evidence] with the status code [get_case] gives for its
    [case_id]. *)
Theorem write_status_as_get_case (db : DB) (case_id : string)
    (update : CaseUpdate.t) (evidence : EvidenceCreate.t) :
  (supplied update ≠ [] →
   response_status (run (update_case case_id update) db)
   = response_status (run (get_case case_id) db))
  ∧ response_status (run (add_evidence evidence) db)
    = response_status (run (get_case (EvidenceCreate.case_id evidence)) db).
Proof.
  unfold run. rewrite update_case_run, add_evidence_run, !get_case_run.
  split.
  - intros Hs. destruct db as [st|]; [|reflexivity].
    rewrite bool_decide_eq_false_2 by exact Hs.
    destruct (of_str case_id) as [oid|]; [|reflexivity].
    destruct (collection st "case" !! oid); reflexivity.
  - destruct db as [st|]; [|reflexivity].
    destruct (of_str (EvidenceCreate.case_id evidence)) as [oid|];
      [|reflexivity].
    destruct (collection st "case" !! oid); reflexivity.
Qed.

Lemma write_status_as_get_case_witness :
  response_status (run (update_case id1 notes_only) store1)
  = response_status (run (get_case id1) store1).
Proof.
  destruct (write_status_as_get_case store1 id1 notes_only evidence1)
    as [Hupdate _].
  apply Hupdate. discriminate.
Defined.

(** ** Validation bounds *)

(** X14. [Case] and [CaseUpdate] accept an integer [risk_score] exactly
    when it lies between 0 and 100 inclusive, keeping its value; [None] is
    always accepted; every other integer is rejected with a validation
    error on [risk_score]. *)
Theorem risk_score_accepted_iff (username : string)
    (allegations reporter_name reporter_contact status notes : option string)
    (z : Z) :
  (CaseSchema username allegations reporter_name reporter_contact status
     (Some z) notes
   = Return (Case.mk username allegations reporter_name reporter_contact
               (default "open" status) (Some z) notes)
   ↔ 0 ≤ z ≤ 100)
  ∧ (CaseSchema username allegations reporter_name reporter_contact status
       (Some z) notes = Raise (ValidationError "risk_score")
     ↔ z < 0 ∨ 100 < z)
  ∧ (CaseUpdate_validate status notes (Some z)
     = Return (CaseUpdate.mk status notes (Some z)) ↔ 0 ≤ z ≤ 100)
  ∧ (CaseUpdate_validate status notes (Some z)
     = Raise (ValidationError "risk_score") ↔ z < 0 ∨ 100 < z)
  ∧ CaseSchema username allegations reporter_name reporter_contact status
      None notes
    = Return (Case.mk username allegations reporter_name reporter_contact
                (default "open" status) None notes)
  ∧ CaseUpdate_validate status notes None
    = Return (CaseUpdate.mk status notes None).
Proof.
  unfold CaseSchema, CaseUpdate_validate, Field_ge_le.
  destruct (0 <=? z) eqn:Hlo, (z <=? 100) eqn:Hhi; cbn [andb];
    repeat split; try reflexivity; try discriminate; intros; lia.
Qed.

(** X15. The example schema [User] accepts an integer [age] exactly when
    it lies between 0 and 120 inclusive, and [is_active] is true unless
    given. *)
Theorem user_age_accepted_iff (name email address : string) (z : Z)
    (is_active : option bool) :
  (UserSchema name email address (Some z) is_active
   = Return (User.mk name email address (Some z) (default true is_active))
   ↔ 0 ≤ z ≤ 120)
  ∧ (UserSchema name email address (Some z) is_active
     = Raise (ValidationError "age") ↔ z < 0 ∨ 120 < z)
  ∧ UserSchema name email address None None
    = Return (User.mk name email address None true).
Proof.
  unfold UserSchema, Field_ge_le.
  destruct (0 <=? z) eqn:Hlo, (z <=? 120) eqn:Hhi; cbn [andb];
    repeat split; try reflexivity; try discriminate; intros; lia.
Qed.

(** ** Evidence and the spelling of the case id *)

Lemma VStr_inj (a b : string) : VStr a = VStr b → a = b.
Proof. by intros [= ->]. Qed.

(** X16. [add_evidence] checks the case by the parsed identifier but
    stores [case_id] as the string it was given. When that string is
    spelled differently from the case's public id (hexadecimal digits in
    upper case), the evidence is accepted, yet [list_evidence] under the
    public id does not return it. *)
Theorem add_evidence_spelling (st : Store) (payload : EvidenceCreate.t)
    (oid : ObjectId) (limit : option Z) :
  of_str (EvidenceCreate.case_id payload) = Some oid →
  is_Some (collection st "case" !! oid) →
  EvidenceCreate.case_id payload ≠ to_str oid →
  ∃ (evidence_id : ObjectId) (st' : Store) (stored : dict),
    add_evidence payload (Some st)
    = (Return {[ "id" := VStr (to_str evidence_id) ]}, Some st')
    ∧ collection st' "evidence" !! evidence_id = Some stored
    ∧ stored !! "case_id" = Some (VStr (EvidenceCreate.case_id payload))
    ∧ ∃ docs : list dict,
        list_evidence (to_str oid) limit (Some st') = (Return docs, Some st')
        ∧ ∀ r : dict, r ∈ docs →
            r !! "id" ≠ Some (VStr (to_str evidence_id)).
Proof.
  intros Hoid [fields Hin] Hspelling. rewrite add_evidence_run, Hoid, Hin.
  cbn zeta. eexists _, _, _. split; [reflexivity|].
  rewrite collection_insert. split; [apply lookup_insert_eq|].
  split; [reflexivity|].
  eexists. split; [reflexivity|].
  intros r Hr Hid.
  apply elem_of_listing in Hr as (oid' & fields' & Hin' & Hm & ->).
  rewrite lookup_insert_eq in Hid. apply (inj Some) in Hid.
  apply VStr_inj, to_str_inj in Hid. subst oid'.
  rewrite collection_insert, lookup_insert_eq in Hin'.
  apply (inj Some) in Hin'. subst fields'.
  unfold matches in Hm. apply bool_decide_eq_true_1 in Hm.
  apply map_Forall_singleton in Hm.
  rewrite with_id_lookup_ne in Hm by discriminate.
  unfold model_dump, Evidence_model in Hm. cbn [Evidence.case_id] in Hm.
  rewrite lookup_insert_eq in Hm.
  apply (inj Some), VStr_inj in Hm. by apply Hspelling.
Qed.

Lemma add_evidence_spelling_witness :
  ∃ (evidence_id : ObjectId) (st' : Store) (stored : dict),
    add_evidence evidence_upper (Some st3)
    = (Return {[ "id" := VStr (to_str evidence_id) ]}, Some st')
    ∧ collection st' "evidence" !! evidence_id = Some stored
    ∧ stored !! "case_id" = Some (VStr "00000000000000000000000A")
    ∧ ∃ docs : list dict,
        list_evidence (to_str (generate 10)) None (Some st')
        = (Return docs, Some st')
        ∧ ∀ r : dict, r ∈ docs →
            r !! "id" ≠ Some (VStr (to_str evidence_id)).
Proof.
  apply (add_evidence_spelling st3 evidence_upper (generate 10) None).
  - reflexivity.
  - exists (model_dump case1). reflexivity.
  - discriminate.
Defined.

(** ** The diagnostic endpoint *)



Lemma set_or_not_set (environ : gmap string string) (key : string) :
  set_or_not environ key = "✅ Set"
  ↔ ∃ v : string, environ !! key = Some v ∧ v ≠ "".
Proof.
  unfold set_or_not, truthy_str. destruct (environ !! key) as [v|].
  - destruct (String.eqb_spec v "") as [->|Hne]; cbn [negb].
    + split; [discriminate|]. by intros (v & [= <-] & Hv).
    + split; [|done]. intros _. by exists v.
  - split; [discriminate|]. by intros (v & Hv & _).
Qed.

(** X17. The diagnostic reports at most ten collection names, the first
    ten the store lists; it reports any only when the listing worked, and
    then the database is shown as connected and working. *)
Theorem test_database_collections (environ : gmap string string)
    (import_db : attempt (option Database.t)) :
  let response := test_database environ import_db in
  (length (Diagnostic.collections response) ≤ 10)%nat
  ∧ (∀ (_db : Database.t) (names : list string),
       import_db = Done (Some _db) →
       Database.list_collection_names _db = Done names →
       Diagnostic.collections response = take 10 names
       ∧ Diagnostic.database response = "✅ Connected & Working")
  ∧ (Diagnostic.collections response ≠ [] →
     Diagnostic.database response = "✅ Connected & Working"
     ∧ Diagnostic.connection_status response = "Connected").
Proof.
  cbn zeta. unfold test_database.
  destruct import_db as [[_db|]|e]; cbn.
  - destruct (Database.list_collection_names _db) as [names|e] eqn:Hl; cbn.
    + split; [rewrite length_take; lia|]. split; [|done].
      intros d names' [= <-]. rewrite Hl. by intros [= <-].
    + split; [lia|]. split; [|done]. intros d names' [= <-]. by rewrite Hl.
  - split; [lia|]. split; done.
  - split; [lia|]. split; done.
Qed.

(** X18. The diagnostic always shows the backend as running. It shows
    "Connected" exactly when the import gave a handle that is not [None],
    even if listing the collections then failed; and it leaves
    [database_url] and [database_name] at [None] exactly when the import
    worked but the handle is [None]. *)
Theorem test_database_connection (environ : gmap string string)
    (import_db : attempt (option Database.t)) :
  let response := test_database environ import_db in
  Diagnostic.backend response = "✅ Running"
  ∧ (Diagnostic.connection_status response = "Connected"
     ↔ ∃ _db : Database.t, import_db = Done (Some _db))
  ∧ (Diagnostic.connection_status response ≠ "Connected" →
     Diagnostic.connection_status response = "Not Connected")
  ∧ (Diagnostic.database_url response = None ↔ import_db = Done None)
  ∧ (Diagnostic.database_name response = None ↔ import_db = Done None).
Proof.
  cbn zeta. unfold test_database.
  destruct import_db as [[_db|]|e]; cbn.
  - destruct (Database.list_collection_names _db); cbn;
      (split; [done|]); (split; [split; [by eauto|done]|]);
      (split; [done|]); split; split; discriminate.
  - split; [done|]. split; [split; [discriminate|by intros [? ?]]|].
    split; [done|]. split; done.
  - split; [done|]. split; [split; [discriminate|by intros [? ?]]|].
    split; [done|]. split; split; discriminate.
Qed.

(** X19. An environment variable set to the empty string is reported as
    not set. [DATABASE_URL] is reported whenever the import failed or gave
    a handle; [DATABASE_NAME] is read only when the import failed, and
    otherwise the handle's own name is shown. *)
Theorem test_database_environment (environ : gmap string string)
    (import_db : attempt (option Database.t)) :
  (import_db ≠ Done None →
   ∃ flag : string,
     Diagnostic.database_url (test_database environ import_db) = Some flag
     ∧ (flag = "✅ Set"
        ↔ ∃ v : string, environ !! "DATABASE_URL" = Some v ∧ v ≠ "")
     ∧ (flag ≠ "✅ Set" → flag = "❌ Not Set"))
  ∧ (∀ e : string,
       import_db = Raised e →
       ∃ flag : string,
         Diagnostic.database_name (test_database environ import_db)
         = Some flag
         ∧ (flag = "✅ Set"
            ↔ ∃ v : string, environ !! "DATABASE_NAME" = Some v ∧ v ≠ "")
         ∧ (flag ≠ "✅ Set" → flag = "❌ Not Set"))
  ∧ (∀ (_db : Database.t) (n : string),
       import_db = Done (Some _db) → Database.name _db = Some n →
       Diagnostic.database_name (test_database environ import_db) = Some n)
  ∧ (∀ (handle : option Database.t) (environ' : gmap string string),
       import_db = Done handle →
       environ' !! "DATABASE_URL" = environ !! "DATABASE_URL" →
       test_database environ' import_db = test_database environ import_db).
Proof.
  assert (Hflag : ∀ key : string,
             (set_or_not environ key = "✅ Set"
              ↔ ∃ v : string, environ !! key = Some v ∧ v ≠ "")
             ∧ (set_or_not environ key ≠ "✅ Set" →
                set_or_not environ key = "❌ Not Set")).
  { intros key. split; [apply set_or_not_set|].
    unfold set_or_not. by destruct (truthy_str (environ !! key)). }
  unfold test_database. split; [|split; [|split]].
  - intros Hne. exists (set_or_not environ "DATABASE_URL").
    split; [|apply Hflag].
    destruct import_db as [[_db|]|e]; [|done|done].
    by destruct (Database.list_collection_names _db).
  - intros e ->. exists (set_or_not environ "DATABASE_NAME").
    split; [done|apply Hflag].
  - intros _db n -> Hn.
    destruct (Database.list_collection_names _db); cbn; by rewrite Hn.
  - intros handle environ' -> Hurl. unfold set_or_not. by rewrite Hurl.
Qed.

